(** * Verification of [test-file-types/example.py]

    The module defines a recursive [factorial] on Python integers and a
    [Calculator] class with two methods, [add] and [multiply], on Python
    numbers.  Python integers are unbounded ([Z]); Python floats are IEEE 754
    binary64 values, modelled by the Standard Library's [spec_float] at
    precision 53 and maximal exponent 1024. *)

From Stdlib Require Import ZArith Bool Lia List FunInd Recdef.
From Stdlib Require Import Floats.SpecFloat.
From stdpp Require Import base gmap strings.
Import ListNotations.

Local Open Scope Z_scope.

(** ** Values and outcomes *)

(** The two numeric types the annotations [int] and [float] range over. *)
Inductive value : Type :=
| VInt (z : Z)
| VFloat (f : spec_float).

(** Exceptions a numeric operator can raise on those values. *)
Inductive exn : Type :=
| OverflowError.

(** What a numeric operator produces: a value or an exception. *)
Inductive result (A : Type) : Type :=
| Ok (a : A)
| Err (e : exn).
Arguments Ok {A} a.
Arguments Err {A} e.

(** What a call produces: a returned value, a raised exception, or nothing
    within the call depth it was allowed ([OutOfFuel]). *)
Inductive outcome (A : Type) : Type :=
| Ret (a : A)
| Raise (e : exn)
| OutOfFuel.
Arguments Ret {A} a.
Arguments Raise {A} e.
Arguments OutOfFuel {A}.

(** ** The state a call could observe or change

    Objects live in a heap indexed by references; an instance is its
    attribute dictionary.  [stdout] is the text printed so far. *)
Definition loc := positive.

Record World : Type := mkWorld {
  heap : gmap loc (gmap string value);
  stdout : list string
}.

(** Computations thread the world and may stop early. *)
Definition M (A : Type) : Type := World -> outcome A * World.

Definition ret {A} (a : A) : M A := fun w => (Ret a, w).

Definition bind {A B} (m : M A) (k : A -> M B) : M B :=
  fun w =>
    match m w with
    | (Ret a, w') => k a w'
    | (Raise e, w') => (Raise e, w')
    | (OutOfFuel, w') => (OutOfFuel, w')
    end.

Definition out_of_fuel {A} : M A := fun w => (OutOfFuel, w).

(** The result of an operator as the outcome of the [return] it stands in. *)
Definition of_result {A} (r : result A) : outcome A :=
  match r with
  | Ok a => Ret a
  | Err e => Raise e
  end.

Definition lift {A} (r : result A) : M A := fun w => (of_result r, w).

Notation "x <- m ;; k" := (bind m (fun x => k))
  (at level 100, m at next level, right associativity).

(** ** [factorial]

    <<
    def factorial(n: int) -> int:
        if n <= 1:
            return 1
        return n * factorial(n - 1)
    >> *)

(** The function the definition denotes.  The recursive call is on [n - 1]
    under [n > 1], so [Z.to_nat n] decreases. *)
Function factorial (n : Z) {measure Z.to_nat n} : Z :=
  if n <=? 1 then 1 else n * factorial (n - 1).
Proof. intros n Hn. apply Z.leb_gt in Hn. lia. Defined.

(** The same body run as a call, with [depth] stack frames available: each
    call uses one frame, and a call with none left does not complete. *)
Fixpoint factorial_call (depth : nat) (n : Z) : M Z :=
  match depth with
  | O => out_of_fuel
  | S depth' =>
      if n <=? 1 then ret 1
      else r <- factorial_call depth' (n - 1) ;; ret (n * r)
  end.

(** Number of frames a call [factorial(n)] needs: one for [n <= 1], and one
    more for each step from [n] down to [1]. *)
Definition frames (n : Z) : nat := S (Z.to_nat (n - 1)).

(** A call terminates when some depth lets it return; it diverges when no
    depth does. *)
Definition terminates (n : Z) : Prop :=
  exists depth v, forall w, factorial_call depth n w = (Ret v, w).

Definition diverges (n : Z) : Prop :=
  forall depth w, fst (factorial_call depth n w) = OutOfFuel.

(** ** Python numbers

    A [float] is an IEEE 754 binary64 value; arithmetic rounds to nearest,
    ties to even, and never traps (overflow gives an infinity, an invalid
    operation gives NaN). *)
Definition prec : Z := 53.
Definition emax : Z := 1024.

Definition float_add : spec_float -> spec_float -> spec_float := SFadd prec emax.
Definition float_mul : spec_float -> spec_float -> spec_float := SFmul prec emax.

(** The float written [m * 2 ** e] for integers [m] and [e], correctly
    rounded; used for literals such as [1.5]. *)
Definition float_lit (m e : Z) : spec_float := binary_normalize prec emax m e false.

Definition nan : spec_float := S754_nan.
Definition inf : spec_float := S754_infinity false.

(** [float(z)] for an integer [z]: the nearest float, or [OverflowError]
    ("int too large to convert to float") when that is out of range. *)
Definition float_of_int (z : Z) : result spec_float :=
  match binary_normalize prec emax z 0 false with
  | S754_infinity _ => Err OverflowError
  | f => Ok f
  end.

(** The operand conversion of a mixed [int]/[float] operation. *)
Definition to_float (v : value) : result spec_float :=
  match v with
  | VInt z => float_of_int z
  | VFloat f => Ok f
  end.

(** A float operation on two operands once both are converted. *)
Definition float_binop (op : spec_float -> spec_float -> spec_float)
    (a b : value) : result value :=
  match to_float a with
  | Ok x =>
      match to_float b with
      | Ok y => Ok (VFloat (op x y))
      | Err e => Err e
      end
  | Err e => Err e
  end.

(** [a + b]: exact on two integers, a float operation otherwise. *)
Definition py_add (a b : value) : result value :=
  match a, b with
  | VInt x, VInt y => Ok (VInt (x + y))
  | _, _ => float_binop float_add a b
  end.

(** [a * b]: exact on two integers, a float operation otherwise. *)
Definition py_mul (a b : value) : result value :=
  match a, b with
  | VInt x, VInt y => Ok (VInt (x * y))
  | _, _ => float_binop float_mul a b
  end.

(** Exact comparison of a float with an integer, as [==] does it (no
    conversion of the integer, so no rounding and no exception). *)
Definition float_eq_int (f : spec_float) (z : Z) : bool :=
  match f with
  | S754_zero _ => z =? 0
  | S754_finite s m e =>
      if 0 <=? e then z =? cond_Zopp s (Zpos m) * 2 ^ e
      else z * 2 ^ (- e) =? cond_Zopp s (Zpos m)
  | _ => false
  end.

(** [a == b] on numbers.  On floats it is the IEEE comparison: NaN is equal
    to nothing, itself included, and the two zeros are equal. *)
Definition py_eq (a b : value) : bool :=
  match a, b with
  | VInt x, VInt y => x =? y
  | VFloat x, VFloat y => SFeqb x y
  | VFloat x, VInt y => float_eq_int x y
  | VInt x, VFloat y => float_eq_int y x
  end.

(** [r == v] for the outcome [r] of a call: true only if the call returned
    a value that compares equal to [v]. *)
Definition returns_eq (r : outcome value) (v : value) : bool :=
  match r with
  | Ret u => py_eq u v
  | _ => false
  end.

(** [r1 == r2] for the outcomes of two calls. *)
Definition outcomes_eq (r1 r2 : outcome value) : bool :=
  match r1, r2 with
  | Ret u, Ret v => py_eq u v
  | _, _ => false
  end.

(** ** [Calculator]

    <<
    class Calculator:
        def add(self, a: float, b: float) -> float:
            return a + b

        def multiply(self, a: float, b: float) -> float:
            return a * b
    >>

    [self] is the reference to the instance the method is called on. *)
Module Calculator.

Definition add (self : loc) (a b : value) : M value :=
  lift (py_add a b).

Definition multiply (self : loc) (a b : value) : M value :=
  lift (py_mul a b).

End Calculator.

(** The three operations of the module, with their arguments. *)
Inductive call : Type :=
| CallFactorial (depth : nat) (n : Z)
| CallAdd (self : loc) (a b : value)
| CallMultiply (self : loc) (a b : value).

Definition run_call (c : call) : M value :=
  match c with
  | CallFactorial depth n => r <- factorial_call depth n ;; ret (VInt r)
  | CallAdd self a b => Calculator.add self a b
  | CallMultiply self a b => Calculator.multiply self a b
  end.

(** What a call produces, computed from its arguments alone. *)
Definition call_result (c : call) : outcome value :=
  match c with
  | CallFactorial depth n =>
      if (frames n <=? depth)%nat then Ret (VInt (factorial n)) else OutOfFuel
  | CallAdd _ a b => of_result (py_add a b)
  | CallMultiply _ a b => of_result (py_mul a b)
  end.

(** Method calls on one [Calculator] instance. *)
Inductive method_call : Type :=
| Add (a b : value)
| Multiply (a b : value).

Definition invoke (self : loc) (m : method_call) : M value :=
  match m with
  | Add a b => Calculator.add self a b
  | Multiply a b => Calculator.multiply self a b
  end.

(** A caller invoking the methods [ms] on [self] one after the other,
    collecting what each produced and carrying on whatever the outcome. *)
Fixpoint invoke_all (self : loc) (ms : list method_call) (w : World)
    : list (outcome value) * World :=
  match ms with
  | [] => ([], w)
  | m :: ms' =>
      let '(r, w1) := invoke self m w in
      let '(rs, w2) := invoke_all self ms' w1 in
      (r :: rs, w2)
  end.

(** What a method call produces, computed from [a] and [b] alone. *)
Definition method_result (m : method_call) : outcome value :=
  match m with
  | Add a b => of_result (py_add a b)
  | Multiply a b => of_result (py_mul a b)
  end.

(** Some concrete data. *)
Definition empty_world : World := mkWorld ∅ [].
Definition calc : loc := 1%positive.
Definition one_calculator : World :=
  mkWorld {[ calc := {[ "memory"%string := VInt 7 ]} ]} [].
Definition one : spec_float := float_lit 1 0.
Definition one_and_a_half : spec_float := float_lit 3 (-1).

(** ** Vocabulary for further properties *)

(** The product of a list of integers; the empty product is [1]. *)
Definition product (l : list Z) : Z := foldr Z.mul 1 l.

(** [-x] on a float. *)
Definition float_neg : spec_float -> spec_float := SFopp.

(** The floats Python has: NaN, the infinities, the zeros, and the finite
    numbers in canonical binary64 form. *)
Definition valid_float (f : spec_float) : Prop := valid_binary prec emax f = true.

Definition valid_value (v : value) : Prop :=
  match v with
  | VInt _ => True
  | VFloat f => valid_float f
  end.

Definition is_nan (f : spec_float) : bool :=
  match f with
  | S754_nan => true
  | _ => false
  end.

Definition is_inf (f : spec_float) : bool :=
  match f with
  | S754_infinity _ => true
  | _ => false
  end.

Definition is_zero (f : spec_float) : bool :=
  match f with
  | S754_zero _ => true
  | _ => false
  end.

Definition is_finite (f : spec_float) : bool :=
  match f with
  | S754_zero _ | S754_finite _ _ _ => true
  | _ => false
  end.

(** The sign bit of a float that has one. *)
Definition sign_of (f : spec_float) : option bool :=
  match f with
  | S754_zero s | S754_infinity s | S754_finite s _ _ => Some s
  | S754_nan => None
  end.

(** The operand pairs IEEE 754 calls invalid: an infinity times a zero, and
    the sum of two infinities of opposite sign. *)
Definition invalid_mul (x y : spec_float) : bool :=
  is_inf x && is_zero y || is_zero x && is_inf y.

Definition invalid_add (x y : spec_float) : bool :=
  match x, y with
  | S754_infinity sx, S754_infinity sy => xorb sx sy
  | _, _ => false
  end.

(** Finite operands: every integer, and the floats other than NaN and the
    infinities. *)
Definition value_finite (v : value) : bool :=
  match v with
  | VInt _ => true
  | VFloat f => is_finite f
  end.

(** [-a] on a number. *)
Definition py_neg (v : value) : value :=
  match v with
  | VInt z => VInt (- z)
  | VFloat f => VFloat (float_neg f)
  end.

(** A shifter state holding the mantissa [m] with nothing shifted out. *)
Definition exact_record (m : positive) : shr_record :=
  {| shr_m := Zpos m; shr_r := false; shr_s := false |}.

(** The least magnitude of an integer that [float] refuses: halfway between
    the largest float, [2 ** 1024 - 2 ** 971], and [2 ** 1024]. *)
Definition overflow_threshold : Z := 2 ^ 1024 - 2 ^ 970.

(** The operand pairs with a float on one side and an integer too large to
    convert on the other. *)
Definition overflows (a b : value) : bool :=
  match a, b with
  | VInt z, VFloat _ | VFloat _, VInt z => overflow_threshold <=? Z.abs z
  | _, _ => false
  end.

(** * Properties of [factorial] *)

Section Factorial.

(** The defining equation, in the shape of the source. *)
Lemma factorial_eqn (n : Z) :
  factorial n = if n <=? 1 then 1 else n * factorial (n - 1).
Proof. apply factorial_equation. Qed.

Lemma factorial_base (n : Z) : n <= 1 -> factorial n = 1.
Proof.
  intros Hn. rewrite factorial_eqn.
  destruct (Z.leb_spec n 1); [reflexivity | lia].
Qed.

Lemma factorial_step (n : Z) : 1 < n -> factorial n = n * factorial (n - 1).
Proof.
  intros Hn. rewrite factorial_eqn.
  destruct (Z.leb_spec n 1); [lia | reflexivity].
Qed.

(** On the naturals it is the factorial of the Standard Library. *)
Lemma factorial_fact (k : nat) : factorial (Z.of_nat k) = Z.of_nat (fact k).
Proof.
  induction k as [| k IH].
  - reflexivity.
  - destruct k as [| k'].
    + reflexivity.
    + rewrite factorial_step by lia.
      replace (Z.of_nat (S (S k')) - 1) with (Z.of_nat (S k')) by lia.
      rewrite IH. change (fact (S (S k'))) with (S (S k') * fact (S k'))%nat.
      rewrite Nat2Z.inj_mul. reflexivity.
Qed.

(** The result is positive on every integer. *)
Lemma factorial_pos (n : Z) : 0 < factorial n.
Proof.
  functional induction (factorial n) as [n Hle | n Hgt IH].
  - lia.
  - apply Z.leb_gt in Hgt. nia.
Qed.

Lemma frames_base (n : Z) : n <= 1 -> frames n = 1%nat.
Proof. intros Hn. unfold frames. replace (Z.to_nat (n - 1)) with 0%nat by lia. reflexivity. Qed.

Lemma frames_step (n : Z) : 1 < n -> frames n = S (frames (n - 1)).
Proof. intros Hn. unfold frames. f_equal. lia. Qed.

(** A call returns [factorial n] and leaves the world alone exactly when
    it has the [frames n] stack frames it needs. *)
Lemma factorial_call_frames (depth : nat) :
  forall (n : Z) (w : World),
    factorial_call depth n w =
    if (frames n <=? depth)%nat then (Ret (factorial n), w) else (OutOfFuel, w).
Proof.
  induction depth as [| depth IH]; intros n w.
  - reflexivity.
  - cbn [factorial_call].
    destruct (Z.leb_spec n 1) as [Hle | Hgt].
    + rewrite (frames_base n Hle), (factorial_base n Hle). reflexivity.
    + unfold bind. rewrite IH, (frames_step n Hgt), (factorial_step n Hgt).
      change (S (frames (n - 1)) <=? S depth)%nat with (frames (n - 1) <=? depth)%nat.
      destruct (frames (n - 1) <=? depth)%nat; reflexivity.
Qed.

Lemma factorial_call_enough (n : Z) (w : World) :
  factorial_call (frames n) n w = (Ret (factorial n), w).
Proof. rewrite factorial_call_frames, Nat.leb_refl. reflexivity. Qed.

Lemma factorial_terminates (n : Z) : terminates n.
Proof. exists (frames n), (factorial n). apply factorial_call_enough. Qed.

Lemma terminates_not_diverges (n : Z) : terminates n -> ~ diverges n.
Proof.
  intros (depth & v & Hrun) Hdiv.
  specialize (Hdiv depth (mkWorld ∅ [])). rewrite Hrun in Hdiv. discriminate.
Qed.

End Factorial.

(** ** Sanity checks of the model on concrete inputs *)

Example factorial_5 : factorial 5 = 120.
Proof. reflexivity. Qed.

(** Three frames are needed for [factorial(3)]; two are not enough. *)
Example factorial_call_3 :
  factorial_call 3 3 empty_world = (Ret 6, empty_world) /\
  factorial_call 2 3 empty_world = (OutOfFuel, empty_world).
Proof. split; reflexivity. Qed.

(** The literal [1.5] is the binary64 number [3 * 2 ** 51 * 2 ** -52]. *)
Example one_and_a_half_bits :
  one_and_a_half = S754_finite false 6755399441055744 (-52) /\
  valid_binary prec emax one_and_a_half = true.
Proof. split; vm_compute; reflexivity. Qed.

Example add_opposite_floats :
  py_add (VFloat (SFopp one_and_a_half)) (VFloat one_and_a_half)
  = Ok (VFloat (S754_zero false)).
Proof. vm_compute. reflexivity. Qed.

(** [float(2 ** 53 + 1)] rounds to [2 ** 53]; the largest integer that
    converts is just below [2 ** 1024 - 2 ** 970]. *)
Example float_of_int_rounds :
  float_of_int (2 ^ 53 + 1) = Ok (S754_finite false 4503599627370496 1).
Proof. vm_compute. reflexivity. Qed.

Example float_of_int_largest :
  float_of_int (2 ^ 1024 - 2 ^ 970 - 1)
  = Ok (S754_finite false 9007199254740991 971) /\
  float_of_int (2 ^ 1024 - 2 ^ 970) = Err OverflowError.
Proof. split; vm_compute; reflexivity. Qed.

(** A mixed product whose integer operand does not fit a float raises, in
    either order. *)
Example multiply_huge_int :
  py_mul (VInt (10 ^ 400)) (VFloat one) = Err OverflowError /\
  py_mul (VFloat one) (VInt (10 ^ 400)) = Err OverflowError.
Proof. split; vm_compute; reflexivity. Qed.

(** [inf * 0] is NaN, and [==] is exact between an integer and a float. *)
Example multiply_inf_zero : py_mul (VFloat inf) (VInt 0) = Ok (VFloat nan).
Proof. vm_compute. reflexivity. Qed.

Example py_eq_mixed :
  py_eq (VInt 3) (VFloat (float_lit 3 0)) = true /\
  py_eq (VInt (2 ^ 53 + 1)) (VFloat (float_lit (2 ^ 53) 0)) = false /\
  py_eq (VFloat (S754_zero true)) (VFloat (S754_zero false)) = true.
Proof. repeat split; vm_compute; reflexivity. Qed.

(** ** The claims about [factorial] *)

(** C1: for every integer [n], the call [factorial(n)] returns; the value is
    [1] when [n <= 1] and [n] times the value of [factorial(n - 1)]
    otherwise; and [factorial(0) == 1], [factorial(1) == 1],
    [factorial(5) == 120], [factorial(10) == 3628800]. *)
Theorem factorial_contract (n : Z) :
  (forall w, factorial_call (frames n) n w = (Ret (factorial n), w)) /\
  (n <= 1 -> factorial n = 1) /\
  (1 < n -> factorial n = n * factorial (n - 1)) /\
  factorial 0 = 1 /\ factorial 1 = 1 /\
  factorial 5 = 120 /\ factorial 10 = 3628800.
Proof.
  split; [intros w; apply factorial_call_enough |].
  split; [apply factorial_base |].
  split; [apply factorial_step |].
  repeat split; reflexivity.
Qed.

(** C1 at [n = -2] (guard) and [n = 5] (recursive branch). *)
Lemma factorial_contract_witness :
  (-2 <= 1 /\ factorial (-2) = 1) /\
  (1 < 5 /\ factorial 5 = 5 * factorial (5 - 1)).
Proof.
  destruct (factorial_contract (-2)) as (_ & Hbase & _).
  destruct (factorial_contract 5) as (_ & _ & Hstep & _).
  split; split.
  - lia.
  - apply Hbase. lia.
  - lia.
  - apply Hstep. lia.
Defined.

(** C2, as stated, fails: the call [factorial(-1)] returns [1] with a single
    stack frame, so it terminates and does not diverge. *)
Lemma factorial_minus_one_returns :
  factorial_call 1 (-1) empty_world = (Ret 1, empty_world) /\
  terminates (-1) /\ ~ diverges (-1).
Proof.
  split; [reflexivity |].
  split; [apply factorial_terminates |].
  apply terminates_not_diverges, factorial_terminates.
Qed.

(** C2, amended: for every negative integer [n], the call [factorial(n)]
    terminates: the guard [n <= 1] holds on the first call, which returns
    [1] without any recursive call and without touching the world. *)
Theorem factorial_negative (n : Z) :
  n < 0 ->
  terminates n /\ factorial n = 1 /\
  forall w, factorial_call 1 n w = (Ret 1, w).
Proof.
  intros Hn.
  split; [apply factorial_terminates |].
  split; [apply factorial_base; lia |].
  intros w. rewrite factorial_call_frames, frames_base, factorial_base by lia.
  reflexivity.
Qed.

(** C2, amended, at [n = -3]. *)
Lemma factorial_negative_witness :
  -3 < 0 /\ terminates (-3) /\ factorial (-3) = 1 /\
  forall w, factorial_call 1 (-3) w = (Ret 1, w).
Proof. split; [lia | apply (factorial_negative (-3)); lia]. Defined.

(** C3: for every integer [n > 0], [factorial(n) == n * factorial(n - 1)]. *)
Theorem factorial_recurrence (n : Z) :
  n > 0 -> factorial n = n * factorial (n - 1).
Proof.
  intros Hn.
  destruct (Z.eq_dec n 1) as [-> | Hne].
  - reflexivity.
  - apply factorial_step. lia.
Qed.

(** C3 at [n = 1], where the recurrence meets the guard. *)
Lemma factorial_recurrence_witness :
  1 > 0 /\ factorial 1 = 1 * factorial (1 - 1).
Proof. split; [lia | apply (factorial_recurrence 1); lia]. Defined.

(** C10: [factorial] is total over the integers, and for every [n <= 1],
    negative [n] included, the first call takes the guard and returns [1]:
    one stack frame is all the call needs, so no recursive call is made. *)
Theorem factorial_total (n : Z) :
  terminates n /\
  (n <= 1 ->
   frames n = 1%nat /\ forall w, factorial_call 1 n w = (Ret 1, w)).
Proof.
  split; [apply factorial_terminates |].
  intros Hn. split; [apply frames_base; exact Hn |].
  intros w. rewrite factorial_call_frames, frames_base, factorial_base by exact Hn.
  reflexivity.
Qed.

(** C10 at [n = -5]. *)
Lemma factorial_total_witness :
  -5 <= 1 /\ frames (-5) = 1%nat /\
  forall w, factorial_call 1 (-5) w = (Ret 1, w).
Proof. split; [lia | apply (factorial_total (-5)); lia]. Defined.

(** * Properties of the numeric operators *)

Section Numbers.

Lemma float_mul_comm (x y : spec_float) : float_mul x y = float_mul y x.
Proof.
  unfold float_mul.
  destruct x as [sx | sx | | sx mx ex], y as [sy | sy | | sy my ey];
    cbn [SFmul]; try reflexivity; try (rewrite (xorb_comm sx sy); reflexivity).
  rewrite (xorb_comm sx sy), (Pos.mul_comm mx my), (Z.add_comm ex ey).
  reflexivity.
Qed.

(** The IEEE comparison is reflexive on everything but NaN. *)
Lemma SFeqb_refl (x : spec_float) : x <> S754_nan -> SFeqb x x = true.
Proof.
  intros Hx. unfold SFeqb.
  destruct x as [s | s | | s m e]; cbn [SFcompare].
  - reflexivity.
  - destruct s; reflexivity.
  - congruence.
  - rewrite Z.compare_refl, Pos.compare_cont_refl. destruct s; reflexivity.
Qed.

Lemma SFeqb_nan_l (x : spec_float) : SFeqb S754_nan x = false.
Proof. reflexivity. Qed.

Lemma py_eq_refl (v : value) : v <> VFloat nan -> py_eq v v = true.
Proof.
  destruct v as [z | f]; intros Hv; cbn [py_eq].
  - apply Z.eqb_refl.
  - apply SFeqb_refl. intros ->. apply Hv. reflexivity.
Qed.

Lemma py_eq_nan (v : value) : py_eq (VFloat nan) v = false.
Proof. destruct v; reflexivity. Qed.

Lemma float_binop_comm (op : spec_float -> spec_float -> spec_float) :
  (forall x y, op x y = op y x) ->
  forall a b, float_binop op a b = float_binop op b a.
Proof.
  intros Hop a b. unfold float_binop.
  destruct (to_float a) as [x | []], (to_float b) as [y | []];
    try reflexivity.
  rewrite (Hop x y). reflexivity.
Qed.

Lemma py_mul_comm (a b : value) : py_mul a b = py_mul b a.
Proof.
  destruct a as [x | x], b as [y | y]; cbn [py_mul];
    try apply (float_binop_comm float_mul float_mul_comm).
  rewrite (Z.mul_comm x y). reflexivity.
Qed.

Lemma float_of_int_0 : float_of_int 0 = Ok (S754_zero false).
Proof. reflexivity. Qed.

(** Adding the integer [0] to a float gives the float back, except that
    [-0.0] becomes [0.0]. *)
Lemma py_add_float_0 (f : spec_float) :
  py_add (VFloat f) (VInt 0) =
  Ok (VFloat (match f with S754_zero _ => S754_zero false | _ => f end)).
Proof.
  cbn [py_add]. unfold float_binop. cbn [to_float]. rewrite float_of_int_0.
  unfold float_add. destruct f as [[] | [] | | s m e]; reflexivity.
Qed.

Lemma py_add_int_0 (z : Z) : py_add (VInt z) (VInt 0) = Ok (VInt z).
Proof. cbn [py_add]. rewrite Z.add_0_r. reflexivity. Qed.

(** Float operations never raise: only the conversion of an integer
    operand can. *)
Lemma float_binop_floats (op : spec_float -> spec_float -> spec_float)
    (x y : spec_float) :
  float_binop op (VFloat x) (VFloat y) = Ok (VFloat (op x y)).
Proof. reflexivity. Qed.

End Numbers.

(** * Properties of the calls *)

Section Calls.

Lemma add_run (self : loc) (a b : value) (w : World) :
  Calculator.add self a b w = (of_result (py_add a b), w).
Proof. reflexivity. Qed.

Lemma multiply_run (self : loc) (a b : value) (w : World) :
  Calculator.multiply self a b w = (of_result (py_mul a b), w).
Proof. reflexivity. Qed.

(** Every call leaves the world as it found it, and what it produces is a
    function of its arguments. *)
Lemma run_call_pure (c : call) (w : World) :
  run_call c w = (call_result c, w).
Proof.
  destruct c as [depth n | self a b | self a b]; cbn [run_call call_result].
  - unfold bind. rewrite factorial_call_frames.
    destruct (frames n <=? depth)%nat; reflexivity.
  - apply add_run.
  - apply multiply_run.
Qed.

Lemma invoke_pure (self : loc) (m : method_call) (w : World) :
  invoke self m w = (method_result m, w).
Proof. destruct m; reflexivity. Qed.

Lemma invoke_all_pure (self : loc) (ms : list method_call) :
  forall w, invoke_all self ms w = (map method_result ms, w).
Proof.
  induction ms as [| m ms IH]; intros w; cbn [invoke_all map].
  - reflexivity.
  - rewrite invoke_pure, IH. reflexivity.
Qed.

End Calls.

(** ** The claims about [Calculator] *)

(** C4: for all numeric operands, [add(a, b)] returns [a + b]: the exact sum
    of two integers, the IEEE sum of two floats, and the IEEE sum after
    converting the integer when the operands are mixed; in particular
    [add(2, 3) == 5] and [add(-1.5, 1.5) == 0.0]. *)
Theorem add_contract (self : loc) (w : World) :
  (forall a b, Calculator.add self a b w = (of_result (py_add a b), w)) /\
  (forall x y : Z,
      Calculator.add self (VInt x) (VInt y) w = (Ret (VInt (x + y)), w)) /\
  (forall x y : spec_float,
      Calculator.add self (VFloat x) (VFloat y) w
      = (Ret (VFloat (SFadd 53 1024 x y)), w)) /\
  (forall (x : Z) (y : spec_float),
      Calculator.add self (VInt x) (VFloat y) w
      = (match float_of_int x with
         | Ok fx => Ret (VFloat (SFadd 53 1024 fx y))
         | Err e => Raise e
         end, w)) /\
  (forall (x : spec_float) (y : Z),
      Calculator.add self (VFloat x) (VInt y) w
      = (match float_of_int y with
         | Ok fy => Ret (VFloat (SFadd 53 1024 x fy))
         | Err e => Raise e
         end, w)) /\
  Calculator.add self (VInt 2) (VInt 3) w = (Ret (VInt 5), w) /\
  returns_eq (fst (Calculator.add self (VInt 2) (VInt 3) w)) (VInt 5) = true /\
  Calculator.add self (VFloat (SFopp one_and_a_half)) (VFloat one_and_a_half) w
  = (Ret (VFloat (S754_zero false)), w) /\
  returns_eq
    (fst (Calculator.add self (VFloat (SFopp one_and_a_half))
            (VFloat one_and_a_half) w))
    (VFloat (S754_zero false)) = true.
Proof.
  split; [intros a b; apply add_run |].
  split; [reflexivity |].
  split; [reflexivity |].
  split.
  { intros x y. rewrite add_run. cbn [py_add]. unfold float_binop.
    cbn [to_float]. destruct (float_of_int x); reflexivity. }
  split.
  { intros x y. rewrite add_run. cbn [py_add]. unfold float_binop.
    cbn [to_float]. destruct (float_of_int y); reflexivity. }
  repeat split; vm_compute; reflexivity.
Qed.

(** C5: for all numeric operands, [multiply(a, b)] returns [a * b]: the
    exact product of two integers, the IEEE product of two floats, and the
    IEEE product after converting the integer when the operands are mixed;
    in particular [multiply(2, 3) == 6] and [multiply(0, 5) == 0]. *)
Theorem multiply_contract (self : loc) (w : World) :
  (forall a b, Calculator.multiply self a b w = (of_result (py_mul a b), w)) /\
  (forall x y : Z,
      Calculator.multiply self (VInt x) (VInt y) w = (Ret (VInt (x * y)), w)) /\
  (forall x y : spec_float,
      Calculator.multiply self (VFloat x) (VFloat y) w
      = (Ret (VFloat (SFmul 53 1024 x y)), w)) /\
  (forall (x : Z) (y : spec_float),
      Calculator.multiply self (VInt x) (VFloat y) w
      = (match float_of_int x with
         | Ok fx => Ret (VFloat (SFmul 53 1024 fx y))
         | Err e => Raise e
         end, w)) /\
  (forall (x : spec_float) (y : Z),
      Calculator.multiply self (VFloat x) (VInt y) w
      = (match float_of_int y with
         | Ok fy => Ret (VFloat (SFmul 53 1024 x fy))
         | Err e => Raise e
         end, w)) /\
  Calculator.multiply self (VInt 2) (VInt 3) w = (Ret (VInt 6), w) /\
  returns_eq (fst (Calculator.multiply self (VInt 2) (VInt 3) w)) (VInt 6) = true /\
  Calculator.multiply self (VInt 0) (VInt 5) w = (Ret (VInt 0), w) /\
  returns_eq (fst (Calculator.multiply self (VInt 0) (VInt 5) w)) (VInt 0) = true.
Proof.
  split; [intros a b; apply multiply_run |].
  split; [reflexivity |].
  split; [reflexivity |].
  split.
  { intros x y. rewrite multiply_run. cbn [py_mul]. unfold float_binop.
    cbn [to_float]. destruct (float_of_int x); reflexivity. }
  split.
  { intros x y. rewrite multiply_run. cbn [py_mul]. unfold float_binop.
    cbn [to_float]. destruct (float_of_int y); reflexivity. }
  repeat split; vm_compute; reflexivity.
Qed.

(** C6, as stated, fails on floats: with [a = nan] and [b = 1.0] both
    products are NaN, and NaN compares unequal to itself, so
    [multiply(a, b) == multiply(b, a)] is false. *)
Lemma multiply_nan_not_equal :
  outcomes_eq
    (fst (Calculator.multiply calc (VFloat nan) (VFloat one) empty_world))
    (fst (Calculator.multiply calc (VFloat one) (VFloat nan) empty_world))
  = false.
Proof. vm_compute. reflexivity. Qed.

(** C6, amended: for all operands [a] and [b], [multiply(a, b)] and
    [multiply(b, a)] have the same outcome and leave the same world; and
    whenever that outcome is a value other than NaN,
    [multiply(a, b) == multiply(b, a)] is true. *)
Theorem multiply_commutes (self : loc) (a b : value) (w : World) :
  Calculator.multiply self a b w = Calculator.multiply self b a w /\
  (forall v,
      fst (Calculator.multiply self a b w) = Ret v ->
      v <> VFloat nan ->
      outcomes_eq (fst (Calculator.multiply self a b w))
                  (fst (Calculator.multiply self b a w)) = true).
Proof.
  rewrite !multiply_run, (py_mul_comm b a). split; [reflexivity |].
  cbn [fst]. intros v Hv Hnan. rewrite Hv. cbn [outcomes_eq].
  apply py_eq_refl, Hnan.
Qed.

(** C6, amended, at [a = 1.5], [b = 2]: both orders give [3.0]. *)
Lemma multiply_commutes_witness :
  fst (Calculator.multiply calc (VFloat one_and_a_half) (VInt 2) one_calculator)
  = Ret (VFloat (float_lit 3 0)) /\
  VFloat (float_lit 3 0) <> VFloat nan /\
  outcomes_eq
    (fst (Calculator.multiply calc (VFloat one_and_a_half) (VInt 2) one_calculator))
    (fst (Calculator.multiply calc (VInt 2) (VFloat one_and_a_half) one_calculator))
  = true.
Proof.
  assert (H1 : fst (Calculator.multiply calc (VFloat one_and_a_half) (VInt 2)
                      one_calculator) = Ret (VFloat (float_lit 3 0)))
    by (vm_compute; reflexivity).
  assert (H2 : VFloat (float_lit 3 0) <> VFloat nan)
    by (vm_compute; discriminate).
  split; [exact H1 |]. split; [exact H2 |].
  exact (proj2 (multiply_commutes calc (VFloat one_and_a_half) (VInt 2)
                  one_calculator) _ H1 H2).
Defined.

(** C7, as stated, fails on floats: [add(nan, 0)] is NaN, which compares
    unequal to [nan]. *)
Lemma add_nan_zero_not_equal :
  returns_eq (fst (Calculator.add calc (VFloat nan) (VInt 0) empty_world))
             (VFloat nan)
  = false.
Proof. vm_compute. reflexivity. Qed.

(** C7, amended: for every operand [a] other than NaN, [add(a, 0)] returns
    a value and [add(a, 0) == a] is true. *)
Theorem add_zero_identity (self : loc) (a : value) (w : World) :
  a <> VFloat nan ->
  returns_eq (fst (Calculator.add self a (VInt 0) w)) a = true.
Proof.
  intros Hnan. rewrite add_run. cbn [fst].
  destruct a as [z | f].
  - rewrite py_add_int_0. cbn [of_result returns_eq]. apply py_eq_refl, Hnan.
  - rewrite py_add_float_0. cbn [of_result returns_eq py_eq].
    destruct f as [s | s | | s m e].
    + reflexivity.
    + apply SFeqb_refl. discriminate.
    + exfalso. apply Hnan. reflexivity.
    + apply SFeqb_refl. discriminate.
Qed.

(** C7, amended, at [a = -0.0]: the sum is [0.0], which [==] takes for
    equal to [-0.0]. *)
Lemma add_zero_identity_witness :
  VFloat (S754_zero true) <> VFloat nan /\
  returns_eq
    (fst (Calculator.add calc (VFloat (S754_zero true)) (VInt 0) one_calculator))
    (VFloat (S754_zero true))
  = true.
Proof.
  split; [discriminate |].
  apply (add_zero_identity calc (VFloat (S754_zero true)) one_calculator).
  discriminate.
Defined.

(** C8: the three operations are deterministic and free of side effects:
    a call leaves the world exactly as it was, what it produces is the same
    in every world, and making the same call again produces the same
    outcome again. *)
Theorem operations_pure (c : call) (w w' : World) :
  snd (run_call c w) = w /\
  fst (run_call c w) = fst (run_call c w') /\
  run_call c (snd (run_call c w)) = run_call c w /\
  run_call c w = (call_result c, w).
Proof.
  rewrite !run_call_pure. cbn [fst snd]. rewrite ?run_call_pure.
  repeat split; reflexivity.
Qed.

(** C9: a [Calculator] is stateless: after any sequence of [add] and
    [multiply] calls on an instance the world, the instance's attributes
    included, is unchanged, and each result is determined by the arguments
    [a] and [b] of its call, whatever the instance and its attributes. *)
Theorem calculator_stateless (self : loc) (ms : list method_call) (w : World) :
  snd (invoke_all self ms w) = w /\
  heap (snd (invoke_all self ms w)) !! self = heap w !! self /\
  fst (invoke_all self ms w) = map method_result ms /\
  (forall self' w', fst (invoke_all self' ms w') = fst (invoke_all self ms w)) /\
  (forall a b self' w',
      fst (Calculator.add self' a b w') = fst (Calculator.add self a b w) /\
      fst (Calculator.multiply self' a b w')
      = fst (Calculator.multiply self a b w)).
Proof.
  rewrite invoke_all_pure. cbn [fst snd].
  split; [reflexivity |]. split; [reflexivity |]. split; [reflexivity |].
  split.
  - intros self' w'. rewrite invoke_all_pure. reflexivity.
  - intros a b self' w'. split; reflexivity.
Qed.


(** * Further properties of [factorial] *)

Section FactorialMore.

Lemma product_app (l1 l2 : list Z) : product (l1 ++ l2) = product l1 * product l2.
Proof.
  unfold product. induction l1 as [| x l1 IH]; cbn [foldr app].
  - destruct (foldr Z.mul 1 l2); reflexivity.
  - rewrite IH. ring.
Qed.

Lemma seqZ_snoc (n : Z) : 1 < n -> seqZ 1 n = seqZ 1 (n - 1) ++ [n].
Proof.
  intros Hn. replace n with ((n - 1) + 1) at 1 by lia.
  rewrite seqZ_app by lia. f_equal.
  rewrite seqZ_cons by lia. rewrite seqZ_nil by lia. f_equal. lia.
Qed.

Lemma factorial_ge_1 (n : Z) : 1 <= factorial n.
Proof. pose proof (factorial_pos n). lia. Qed.

Lemma factorial_le_succ (n : Z) : factorial n <= factorial (n + 1).
Proof.
  destruct (Z_le_gt_dec (n + 1) 1) as [Hle | Hgt].
  - rewrite (factorial_base n), (factorial_base (n + 1)) by lia. lia.
  - rewrite (factorial_step (n + 1)) by lia.
    replace (n + 1 - 1) with n by lia.
    pose proof (factorial_ge_1 n). nia.
Qed.

End FactorialMore.

(** X1: for every integer [n], [factorial(n)] is the product of the integers
    from [1] to [n]; the product is empty, hence [1], when [n <= 0]. *)
Theorem factorial_product (n : Z) : factorial n = product (seqZ 1 n).
Proof.
  functional induction (factorial n) as [n Hle | n Hgt IH].
  - apply Z.leb_le in Hle.
    destruct (Z.eq_dec n 1) as [-> | Hne]; [reflexivity |].
    rewrite seqZ_nil by lia. reflexivity.
  - apply Z.leb_gt in Hgt.
    rewrite seqZ_snoc, product_app, <- IH by lia.
    cbn [product foldr]. ring.
Qed.

(** X2: the value of [factorial(n)] is never zero or negative, and never
    below [n]: it is at least [1] and at least [n] for every integer. *)
Theorem factorial_lower_bounds (n : Z) : 1 <= factorial n /\ n <= factorial n.
Proof.
  split; [apply factorial_ge_1 |].
  destruct (Z_le_gt_dec n 1) as [Hle | Hgt].
  - pose proof (factorial_ge_1 n). lia.
  - rewrite factorial_step by lia. pose proof (factorial_ge_1 (n - 1)). nia.
Qed.

(** X3: [factorial] is monotone over the integers: [n <= m] implies
    [factorial(n) <= factorial(m)]. *)
Theorem factorial_monotone (n m : Z) : n <= m -> factorial n <= factorial m.
Proof.
  intros Hnm. replace m with (n + Z.of_nat (Z.to_nat (m - n))) by lia.
  induction (Z.to_nat (m - n)) as [| k IH].
  - rewrite Z.add_0_r. lia.
  - etransitivity; [exact IH |].
    replace (n + Z.of_nat (S k)) with (n + Z.of_nat k + 1) by lia.
    apply factorial_le_succ.
Qed.

(** X3 at [n = -4], [m = 6]. *)
Lemma factorial_monotone_witness : -4 <= 6 /\ factorial (-4) <= factorial 6.
Proof. split; [lia | apply (factorial_monotone (-4) 6); lia]. Defined.

(** X4: every integer [k] with [1 <= k <= n] divides [factorial(n)]. *)
Theorem factorial_divisible (n k : Z) : 1 <= k <= n -> (k | factorial n).
Proof.
  functional induction (factorial n) as [n Hle | n Hgt IH]; intros Hk.
  - apply Z.leb_le in Hle. replace k with 1 by lia. apply Z.divide_1_l.
  - apply Z.leb_gt in Hgt.
    destruct (Z.eq_dec k n) as [-> | Hne].
    + apply Z.divide_factor_l.
    + apply Z.divide_mul_r, IH. lia.
Qed.

(** X4 at [n = 6], [k = 4]. *)
Lemma factorial_divisible_witness : 1 <= 4 <= 6 /\ (4 | factorial 6).
Proof. split; [lia | apply (factorial_divisible 6 4); lia]. Defined.

(** X5: a call [factorial(n)] needs exactly [max(n, 1)] stack frames: with
    that many or more it returns [factorial(n)], with fewer it does not
    complete; in both cases the world is left as it was. *)
Theorem factorial_call_depth (depth : nat) (n : Z) (w : World) :
  (Z.max n 1 <= Z.of_nat depth ->
   factorial_call depth n w = (Ret (factorial n), w)) /\
  (Z.of_nat depth < Z.max n 1 ->
   factorial_call depth n w = (OutOfFuel, w)).
Proof.
  rewrite factorial_call_frames. unfold frames.
  split; intros Hd.
  - destruct (Nat.leb_spec (S (Z.to_nat (n - 1))) depth); [reflexivity | lia].
  - destruct (Nat.leb_spec (S (Z.to_nat (n - 1))) depth); [lia | reflexivity].
Qed.

(** X5 at [n = 4]: four frames are enough, three are not. *)
Lemma factorial_call_depth_witness :
  (Z.max 4 1 <= Z.of_nat 4 /\
   factorial_call 4 4 empty_world = (Ret (factorial 4), empty_world)) /\
  (Z.of_nat 3 < Z.max 4 1 /\
   factorial_call 3 4 empty_world = (OutOfFuel, empty_world)).
Proof.
  destruct (factorial_call_depth 4 4 empty_world) as [Hyes _].
  destruct (factorial_call_depth 3 4 empty_world) as [_ Hno].
  split; split.
  - lia.
  - apply Hyes. lia.
  - lia.
  - apply Hno. lia.
Defined.


(** * Further properties of the numeric operators *)

Section NumbersMore.

Lemma float_add_comm (x y : spec_float) : float_add x y = float_add y x.
Proof.
  unfold float_add.
  destruct x as [sx | sx | | sx mx ex], y as [sy | sy | | sy my ey];
    cbn [SFadd]; try reflexivity.
  - destruct sx, sy; reflexivity.
  - destruct sx, sy; reflexivity.
  - rewrite (Z.min_comm ey ex), Z.add_comm. reflexivity.
Qed.

Lemma py_add_comm (a b : value) : py_add a b = py_add b a.
Proof.
  destruct a as [x | x], b as [y | y]; cbn [py_add];
    try apply (float_binop_comm float_add float_add_comm).
  rewrite (Z.add_comm x y). reflexivity.
Qed.

(** Shifting right keeps a mantissa nonnegative. *)
Lemma shr_1_nonneg (mrs : shr_record) : 0 <= shr_m mrs -> 0 <= shr_m (shr_1 mrs).
Proof.
  destruct mrs as [m r s]. cbn [shr_m].
  destruct m as [| [p | p |] | [p | p |]]; cbn; lia.
Qed.

Lemma iter_pos_invariant {A} (P : A -> Prop) (f : A -> A) :
  (forall x, P x -> P (f x)) ->
  forall (p : positive) (x : A), P x -> P (SpecFloat.iter_pos f p x).
Proof.
  intros Hf. induction p as [p IH | p IH |]; intros x Hx; cbn [SpecFloat.iter_pos].
  - apply IH, IH, Hf, Hx.
  - apply IH, IH, Hx.
  - apply Hf, Hx.
Qed.

Lemma shr_fexp_nonneg (m e : Z) (l : location) :
  0 <= m -> 0 <= shr_m (fst (shr_fexp prec emax m e l)).
Proof.
  intros Hm. unfold shr_fexp, shr.
  assert (H0 : 0 <= shr_m (shr_record_of_loc m l))
    by (destruct l as [| []]; exact Hm).
  destruct (fexp prec emax (Zdigits2 m + e) - e) as [| p | p]; cbn [fst];
    try exact H0.
  apply (iter_pos_invariant (fun mrs => 0 <= shr_m mrs)); [apply shr_1_nonneg | exact H0].
Qed.

Lemma round_nearest_even_nonneg (m : Z) (l : location) :
  0 <= m -> 0 <= round_nearest_even m l.
Proof.
  intros Hm. destruct l as [| []]; cbn [round_nearest_even];
    try destruct (Z.even m); lia.
Qed.

(** Rounding a nonnegative mantissa never gives NaN, and keeps the sign. *)
Lemma binary_round_aux_sign (sx : bool) (mx ex : Z) (lx : location) :
  0 <= mx -> sign_of (binary_round_aux prec emax sx mx ex lx) = Some sx.
Proof.
  intros Hm. unfold binary_round_aux.
  pose proof (shr_fexp_nonneg mx ex lx Hm) as H1.
  destruct (shr_fexp prec emax mx ex lx) as [mrs1 e1]. cbn [fst] in H1.
  pose proof (shr_fexp_nonneg _ e1 loc_Exact
                (round_nearest_even_nonneg _ (loc_of_shr_record mrs1) H1)) as H2.
  destruct (shr_fexp prec emax
              (round_nearest_even (shr_m mrs1) (loc_of_shr_record mrs1))
              e1 loc_Exact) as [mrs2 e2].
  cbn [fst] in H2.
  destruct (shr_m mrs2) as [| p | p].
  - reflexivity.
  - destruct (e2 <=? emax - prec); reflexivity.
  - lia.
Qed.

Lemma binary_normalize_not_nan (m e : Z) :
  is_nan (binary_normalize prec emax m e false) = false.
Proof.
  unfold binary_normalize, binary_round.
  destruct m as [| p | p]; [reflexivity | |].
  - destruct (shl_align p e _) as [mz ez].
    pose proof (binary_round_aux_sign false (Zpos mz) ez loc_Exact ltac:(lia)) as H.
    destruct (binary_round_aux prec emax false (Z.pos mz) ez loc_Exact);
      [reflexivity | reflexivity | discriminate | reflexivity].
  - destruct (shl_align p e _) as [mz ez].
    pose proof (binary_round_aux_sign true (Zpos mz) ez loc_Exact ltac:(lia)) as H.
    destruct (binary_round_aux prec emax true (Z.pos mz) ez loc_Exact);
      [reflexivity | reflexivity | discriminate | reflexivity].
Qed.

Lemma float_mul_is_nan (x y : spec_float) :
  is_nan (float_mul x y) = is_nan x || is_nan y || invalid_mul x y.
Proof.
  unfold float_mul, invalid_mul.
  destruct x as [sx | sx | | sx mx ex], y as [sy | sy | | sy my ey];
    cbn [SFmul is_nan is_inf is_zero orb andb]; try reflexivity.
  pose proof (binary_round_aux_sign (xorb sx sy) (Zpos (mx * my)) (ex + ey)
                loc_Exact ltac:(lia)) as H.
  destruct (binary_round_aux prec emax (xorb sx sy) (Z.pos (mx * my)) (ex + ey) loc_Exact);
    [reflexivity | reflexivity | discriminate | reflexivity].
Qed.

Lemma float_add_is_nan (x y : spec_float) :
  is_nan (float_add x y) = is_nan x || is_nan y || invalid_add x y.
Proof.
  unfold float_add.
  destruct x as [sx | sx | | sx mx ex], y as [sy | sy | | sy my ey];
    cbn [SFadd is_nan invalid_add orb]; try reflexivity.
  - destruct sx, sy; reflexivity.
  - destruct sx, sy; reflexivity.
  - apply binary_normalize_not_nan.
Qed.

Lemma float_mul_sign (x y : spec_float) (sx sy : bool) :
  sign_of x = Some sx -> sign_of y = Some sy ->
  invalid_mul x y = false ->
  sign_of (float_mul x y) = Some (xorb sx sy).
Proof.
  unfold float_mul, invalid_mul.
  destruct x as [s1 | s1 | | s1 mx ex], y as [s2 | s2 | | s2 my ey];
    cbn [SFmul sign_of is_inf is_zero orb andb]; intros Hx Hy Hinv;
    try discriminate; injection Hx as <-; injection Hy as <-;
    try reflexivity.
  apply binary_round_aux_sign. lia.
Qed.

End NumbersMore.

(** * Rounding of exactly representable results *)

Section Shifts.

Lemma iter_pos_iter {A} (f : A -> A) (p : positive) :
  forall x, SpecFloat.iter_pos f p x = Pos.iter f x p.
Proof.
  induction p as [p IH | p IH |]; intros x; cbn [SpecFloat.iter_pos Pos.iter].
  - rewrite !IH, !Pos.iter_swap. reflexivity.
  - rewrite !IH. reflexivity.
  - reflexivity.
Qed.

Lemma shr_exact (k m : positive) :
  SpecFloat.iter_pos shr_1 k (exact_record (Pos.iter xO m k)) = exact_record m.
Proof.
  rewrite iter_pos_iter. revert m.
  induction k as [| k IH] using Pos.peano_ind; intros m.
  - reflexivity.
  - rewrite (Pos.iter_succ k _ xO), Pos.iter_succ_r. cbn [exact_record shr_1 orb].
    apply IH.
Qed.

Lemma digits2_pos_shift (k m : positive) :
  digits2_pos (Pos.iter xO m k) = (digits2_pos m + k)%positive.
Proof.
  induction k as [| k IH] using Pos.peano_ind.
  - cbn. symmetry. apply Pos.add_1_r.
  - rewrite Pos.iter_succ. cbn [digits2_pos]. rewrite IH, Pos.add_succ_r.
    reflexivity.
Qed.

Lemma mul_pow2_52 (m : positive) :
  (4503599627370496 * m)%positive = Pos.iter xO m 52.
Proof. reflexivity. Qed.

(** Rounding a canonical mantissa changes nothing. *)
Lemma binary_round_aux_canonical (s : bool) (m : positive) (e : Z) :
  bounded prec emax m e = true ->
  binary_round_aux prec emax s (Zpos m) e loc_Exact = S754_finite s m e.
Proof.
  intros Hb. unfold bounded, canonical_mantissa in Hb.
  apply andb_prop in Hb as [Hc He]. apply Z.eqb_eq in Hc.
  unfold binary_round_aux, shr_fexp. cbn [Zdigits2].
  rewrite Hc, Z.sub_diag.
  cbn [shr shr_record_of_loc shr_m loc_of_shr_record round_nearest_even Zdigits2].
  rewrite Hc, Z.sub_diag. cbn [shr shr_record_of_loc shr_m].
  rewrite He. reflexivity.
Qed.

Lemma digits2_pos_size (m : positive) : digits2_pos m = Pos.size m.
Proof. induction m as [m IH | m IH |]; cbn; rewrite ?IH; reflexivity. Qed.

Lemma digits2_pos_le_53 (m : positive) :
  Zpos m < 2 ^ 53 -> Zpos (digits2_pos m) <= 53.
Proof.
  intros Hm. rewrite digits2_pos_size.
  pose proof (Pos.size_le m) as Hs.
  apply Pos2Z.pos_le_pos in Hs. rewrite Pos2Z.inj_pow in Hs.
  change (Z.pos m~0) with (2 * Z.pos m) in Hs.
  destruct (Z_le_gt_dec (Z.pos (Pos.size m)) 53) as [Hle | Hgt]; [exact Hle |].
  assert (H54 : 2 ^ 54 <= 2 ^ Z.pos (Pos.size m))
    by (apply Z.pow_le_mono_r; lia).
  change (2 ^ 54) with (2 * 2 ^ 53) in H54. lia.
Qed.

Lemma Zpos_shift (k m : positive) :
  Zpos (Pos.iter xO m k) = Zpos m * 2 ^ Zpos k.
Proof.
  induction k as [| k IH] using Pos.peano_ind.
  - cbn. lia.
  - rewrite Pos.iter_succ, Pos2Z.inj_xO, IH, Pos2Z.inj_succ, Z.pow_succ_r by lia.
    ring.
Qed.

(** The conversion of a nonzero integer below [2 ** 53] in magnitude. *)
Lemma binary_round_small (s : bool) (m : positive) :
  Zpos m < 2 ^ 53 ->
  exists mz ez,
    binary_round prec emax s m 0 = S754_finite s mz ez /\
    bounded prec emax mz ez = true /\
    ez <= 0 /\ Zpos mz = Zpos m * 2 ^ (- ez).
Proof.
  intros Hm. pose proof (digits2_pos_le_53 m Hm) as Hd.
  unfold binary_round. rewrite Z.add_0_r.
  assert (Hf : fexp prec emax (Z.pos (digits2_pos m)) = Z.pos (digits2_pos m) - 53).
  { unfold fexp, SpecFloat.emin, prec, emax. lia. }
  rewrite Hf. unfold shl_align. rewrite Z.sub_0_r.
  remember (Z.pos (digits2_pos m) - 53) as k eqn:Hk.
  destruct k as [| p | p]; [| lia |].
  - exists m, 0.
    assert (Hb : bounded prec emax m 0 = true).
    { unfold bounded, canonical_mantissa. rewrite Z.add_0_r, Hf. reflexivity. }
    rewrite (binary_round_aux_canonical s m 0 Hb).
    repeat split; [exact Hb | lia | cbn; lia].
  - exists (Pos.iter xO m p), (Z.neg p).
    assert (Hb : bounded prec emax (Pos.iter xO m p) (Z.neg p) = true).
    { unfold bounded, canonical_mantissa. rewrite digits2_pos_shift.
      apply andb_true_intro. split.
      - apply Z.eqb_eq. unfold fexp, SpecFloat.emin, prec, emax. lia.
      - apply Z.leb_le. unfold prec, emax. lia. }
    rewrite (binary_round_aux_canonical s _ _ Hb).
    repeat split; [exact Hb | lia |].
    rewrite Zpos_shift. reflexivity.
Qed.

Lemma float_of_int_small (z : Z) :
  Z.abs z < 2 ^ 53 ->
  exists f, float_of_int z = Ok f /\ valid_float f /\ float_eq_int f z = true.
Proof.
  intros Hz. unfold float_of_int, binary_normalize.
  destruct z as [| m | m].
  - exists (S754_zero false). repeat split.
  - destruct (binary_round_small false m) as (mz & ez & -> & Hb & He & Hv); [lia |].
    exists (S754_finite false mz ez). split; [reflexivity |]. split; [exact Hb |].
    cbn [float_eq_int cond_Zopp].
    destruct (Z.leb_spec 0 ez).
    + replace ez with 0 in * by lia. apply Z.eqb_eq. cbn in Hv. lia.
    + apply Z.eqb_eq. lia.
  - destruct (binary_round_small true m) as (mz & ez & -> & Hb & He & Hv); [lia |].
    exists (S754_finite true mz ez). split; [reflexivity |]. split; [exact Hb |].
    cbn [float_eq_int cond_Zopp].
    destruct (Z.leb_spec 0 ez).
    + replace ez with 0 in * by lia. apply Z.eqb_eq. cbn in Hv. lia.
    + apply Z.eqb_eq. rewrite Hv. lia.
Qed.

Lemma float_of_int_1 : float_of_int 1 = Ok (S754_finite false 4503599627370496 (-52)).
Proof. vm_compute. reflexivity. Qed.

Lemma float_mul_one_finite (s : bool) (m : positive) (e : Z) :
  bounded prec emax m e = true ->
  float_mul (S754_finite s m e) (S754_finite false 4503599627370496 (-52))
  = S754_finite s m e.
Proof.
  intros Hb. unfold bounded, canonical_mantissa in Hb.
  apply andb_prop in Hb as [Hc He]. apply Z.eqb_eq in Hc.
  unfold float_mul. cbn [SFmul].
  rewrite (Pos.mul_comm m), mul_pow2_52, xorb_false_r.
  unfold binary_round_aux, shr_fexp. cbn [Zdigits2].
  rewrite digits2_pos_shift.
  replace (Z.pos (digits2_pos m + 52) + (e + -52)) with (Z.pos (digits2_pos m) + e) by lia.
  rewrite Hc. replace (e - (e + -52)) with 52 by lia.
  cbn [shr shr_record_of_loc].
  change {| shr_m := Z.pos (Pos.iter xO m 52); shr_r := false; shr_s := false |}
    with (exact_record (Pos.iter xO m 52)).
  rewrite shr_exact. cbn [exact_record shr_m loc_of_shr_record round_nearest_even Zdigits2].
  replace (e + -52 + 52) with e by lia.
  rewrite Hc, Z.sub_diag. cbn [shr shr_record_of_loc shr_m].
  rewrite He. reflexivity.
Qed.

End Shifts.

(** * Further properties of [Calculator] *)

(** X6: [add] is commutative as an operation: for all operands,
    [add(a, b)] and [add(b, a)] produce the same outcome, the same value or
    the same exception, and leave the same world. *)
Theorem add_commutes (self : loc) (a b : value) (w : World) :
  Calculator.add self a b w = Calculator.add self b a w.
Proof. rewrite !add_run, (py_add_comm a b). reflexivity. Qed.

(** X7: multiplying by the integer [0]: for every integer and every finite
    float [a], [multiply(a, 0) == 0] is true (a float gives a zero of its
    own sign); for an infinity or NaN the product is NaN. *)
Theorem multiply_by_zero (self : loc) (a : value) (w : World) :
  (value_finite a = true ->
   returns_eq (fst (Calculator.multiply self a (VInt 0) w)) (VInt 0) = true) /\
  (value_finite a = false ->
   fst (Calculator.multiply self a (VInt 0) w) = Ret (VFloat nan)).
Proof.
  rewrite multiply_run. cbn [fst].
  destruct a as [z | [s | s | | s m e]]; cbn [value_finite is_finite];
    split; intros Hfin; try discriminate; try reflexivity.
  cbn [py_mul of_result returns_eq py_eq]. apply Z.eqb_eq. lia.
Qed.

(** X7 at [a = -1.5] and at [a = inf]. *)
Lemma multiply_by_zero_witness :
  (value_finite (VFloat (float_neg one_and_a_half)) = true /\
   returns_eq
     (fst (Calculator.multiply calc (VFloat (float_neg one_and_a_half))
             (VInt 0) empty_world))
     (VInt 0) = true) /\
  (value_finite (VFloat inf) = false /\
   fst (Calculator.multiply calc (VFloat inf) (VInt 0) empty_world)
   = Ret (VFloat nan)).
Proof.
  destruct (multiply_by_zero calc (VFloat (float_neg one_and_a_half)) empty_world)
    as [Hfin _].
  destruct (multiply_by_zero calc (VFloat inf) empty_world) as [_ Hinf].
  split; split.
  - reflexivity.
  - apply Hfin. reflexivity.
  - reflexivity.
  - apply Hinf. reflexivity.
Defined.

(** X8: the integer [1] is an exact identity of [multiply]: for every
    integer and every float [a] (NaN, infinities and signed zeros included),
    [multiply(a, 1)] and [multiply(1, a)] return [a] itself, unrounded and
    with its sign. *)
Theorem multiply_one_identity (self : loc) (a : value) (w : World) :
  valid_value a ->
  Calculator.multiply self a (VInt 1) w = (Ret a, w) /\
  Calculator.multiply self (VInt 1) a w = (Ret a, w).
Proof.
  intros Hv. rewrite !multiply_run, (py_mul_comm (VInt 1) a).
  enough (H : py_mul a (VInt 1) = Ok a) by (rewrite H; split; reflexivity).
  destruct a as [z | f]; cbn [py_mul].
  - rewrite Z.mul_1_r. reflexivity.
  - unfold float_binop. cbn [to_float]. rewrite float_of_int_1.
    destruct f as [s | s | | s m e].
    + cbn. rewrite xorb_false_r. reflexivity.
    + cbn. rewrite xorb_false_r. reflexivity.
    + reflexivity.
    + rewrite float_mul_one_finite by exact Hv. reflexivity.
Qed.

(** X8 at [a = 1.5]. *)
Lemma multiply_one_identity_witness :
  valid_value (VFloat one_and_a_half) /\
  Calculator.multiply calc (VFloat one_and_a_half) (VInt 1) one_calculator
  = (Ret (VFloat one_and_a_half), one_calculator) /\
  Calculator.multiply calc (VInt 1) (VFloat one_and_a_half) one_calculator
  = (Ret (VFloat one_and_a_half), one_calculator).
Proof.
  assert (Hv : valid_value (VFloat one_and_a_half)) by (vm_compute; reflexivity).
  split; [exact Hv |].
  exact (multiply_one_identity calc (VFloat one_and_a_half) one_calculator Hv).
Defined.

(** X9: on two floats [multiply] always returns a float, and that float is
    NaN exactly when an operand is NaN or the operands are an infinity and
    a zero; rounding and overflow never produce NaN. *)
Theorem multiply_nan_exactly (self : loc) (x y : spec_float) (w : World) :
  exists r,
    Calculator.multiply self (VFloat x) (VFloat y) w = (Ret (VFloat r), w) /\
    is_nan r = is_nan x || is_nan y || invalid_mul x y.
Proof.
  exists (float_mul x y). split; [reflexivity | apply float_mul_is_nan].
Qed.

(** X10: on two floats [add] always returns a float, and that float is NaN
    exactly when an operand is NaN or the operands are infinities of
    opposite sign; rounding and overflow never produce NaN. *)
Theorem add_nan_exactly (self : loc) (x y : spec_float) (w : World) :
  exists r,
    Calculator.add self (VFloat x) (VFloat y) w = (Ret (VFloat r), w) /\
    is_nan r = is_nan x || is_nan y || invalid_add x y.
Proof.
  exists (float_add x y). split; [reflexivity | apply float_add_is_nan].
Qed.

(** X11: the sign rule of [multiply]: for floats with sign bits [sx] and
    [sy] that are not an infinity and a zero, the product has sign bit
    [sx xor sy], also when it is rounded to a zero or overflows to an
    infinity. *)
Theorem multiply_sign_rule (self : loc) (x y : spec_float) (sx sy : bool)
    (w : World) :
  sign_of x = Some sx -> sign_of y = Some sy -> invalid_mul x y = false ->
  exists r,
    Calculator.multiply self (VFloat x) (VFloat y) w = (Ret (VFloat r), w) /\
    sign_of r = Some (xorb sx sy).
Proof.
  intros Hx Hy Hinv. exists (float_mul x y).
  split; [reflexivity | apply float_mul_sign; assumption].
Qed.

(** X11 at [x = -1.5], [y = 1.5]. *)
Lemma multiply_sign_rule_witness :
  sign_of (float_neg one_and_a_half) = Some true /\
  sign_of one_and_a_half = Some false /\
  invalid_mul (float_neg one_and_a_half) one_and_a_half = false /\
  exists r,
    Calculator.multiply calc (VFloat (float_neg one_and_a_half))
      (VFloat one_and_a_half) empty_world = (Ret (VFloat r), empty_world) /\
    sign_of r = Some (xorb true false).
Proof.
  split; [reflexivity |]. split; [reflexivity |]. split; [reflexivity |].
  apply (multiply_sign_rule calc (float_neg one_and_a_half) one_and_a_half
           true false empty_world); reflexivity.
Defined.

(** X12: adding a finite number to its negation gives zero: for an integer
    [a], [add(-a, a)] returns [0]; for a finite float [a] it returns
    [+0.0], whatever the sign of [a]. *)
Theorem add_negation (self : loc) (a : value) (w : World) :
  value_finite a = true ->
  Calculator.add self (py_neg a) a w
  = (Ret (match a with
          | VInt _ => VInt 0
          | VFloat _ => VFloat (S754_zero false)
          end), w).
Proof.
  intros Hfin. rewrite add_run.
  destruct a as [z | [s | s | | s m e]]; try discriminate; cbn [py_neg py_add].
  - rewrite Z.add_opp_diag_l. reflexivity.
  - destruct s; reflexivity.
  - unfold float_binop, float_add, float_neg. cbn [to_float SFopp SFadd].
    rewrite Z.min_id. unfold shl_align. rewrite Z.sub_diag. cbn [fst].
    replace (cond_Zopp (negb s) (Z.pos m) + cond_Zopp s (Z.pos m)) with 0
      by (destruct s; cbn [negb cond_Zopp]; lia).
    reflexivity.
Qed.

(** X12 at [a = 1.5]. *)
Lemma add_negation_witness :
  value_finite (VFloat one_and_a_half) = true /\
  Calculator.add calc (py_neg (VFloat one_and_a_half)) (VFloat one_and_a_half)
    one_calculator
  = (Ret (VFloat (S754_zero false)), one_calculator).
Proof.
  split; [reflexivity |].
  apply (add_negation calc (VFloat one_and_a_half) one_calculator). reflexivity.
Defined.

(** X13: an integer operand below [2 ** 53] in magnitude never makes a mixed
    operation raise: it converts to a valid float that equals it exactly,
    and [add] and [multiply] return the float result for that float. *)
Theorem small_int_operand (z : Z) :
  Z.abs z < 2 ^ 53 ->
  exists f,
    float_of_int z = Ok f /\ valid_float f /\ float_eq_int f z = true /\
    forall (self : loc) (y : spec_float) (w : World),
      Calculator.add self (VInt z) (VFloat y) w
      = (Ret (VFloat (float_add f y)), w) /\
      Calculator.add self (VFloat y) (VInt z) w
      = (Ret (VFloat (float_add y f)), w) /\
      Calculator.multiply self (VInt z) (VFloat y) w
      = (Ret (VFloat (float_mul f y)), w) /\
      Calculator.multiply self (VFloat y) (VInt z) w
      = (Ret (VFloat (float_mul y f)), w).
Proof.
  intros Hz. destruct (float_of_int_small z Hz) as (f & Hf & Hv & Heq).
  exists f. split; [exact Hf |]. split; [exact Hv |]. split; [exact Heq |].
  intros self y w. rewrite !add_run, !multiply_run.
  cbn [py_add py_mul]. unfold float_binop. cbn [to_float]. rewrite Hf.
  repeat split; reflexivity.
Qed.

(** X13 at [z = 2 ** 53 - 1], the largest such integer. *)
Lemma small_int_operand_witness :
  Z.abs (2 ^ 53 - 1) < 2 ^ 53 /\
  exists f,
    float_of_int (2 ^ 53 - 1) = Ok f /\ valid_float f /\
    float_eq_int f (2 ^ 53 - 1) = true /\
    forall (self : loc) (y : spec_float) (w : World),
      Calculator.add self (VInt (2 ^ 53 - 1)) (VFloat y) w
      = (Ret (VFloat (float_add f y)), w) /\
      Calculator.add self (VFloat y) (VInt (2 ^ 53 - 1)) w
      = (Ret (VFloat (float_add y f)), w) /\
      Calculator.multiply self (VInt (2 ^ 53 - 1)) (VFloat y) w
      = (Ret (VFloat (float_mul f y)), w) /\
      Calculator.multiply self (VFloat y) (VInt (2 ^ 53 - 1)) w
      = (Ret (VFloat (float_mul y f)), w).
Proof.
  assert (Hz : Z.abs (2 ^ 53 - 1) < 2 ^ 53) by (vm_compute; reflexivity).
  split; [exact Hz |]. exact (small_int_operand (2 ^ 53 - 1) Hz).
Defined.

(** X14: on integers the two methods compose exactly: computing
    [multiply(a, add(b, c))] and computing
    [add(multiply(a, b), multiply(a, c))] by successive calls return the
    same integer, [a * (b + c)], and leave the world as it was; and
    [add(add(a, b), c)] returns what [add(a, add(b, c))] returns. *)
Theorem integer_calls_compose (self : loc) (a b c : Z) (w : World) :
  (s <- Calculator.add self (VInt b) (VInt c) ;;
   Calculator.multiply self (VInt a) s) w
  = (Ret (VInt (a * (b + c))), w) /\
  (x <- Calculator.multiply self (VInt a) (VInt b) ;;
   y <- Calculator.multiply self (VInt a) (VInt c) ;;
   Calculator.add self x y) w
  = (Ret (VInt (a * (b + c))), w) /\
  (s <- Calculator.add self (VInt a) (VInt b) ;;
   Calculator.add self s (VInt c)) w
  = (s <- Calculator.add self (VInt b) (VInt c) ;;
     Calculator.add self (VInt a) s) w.
Proof.
  unfold bind. rewrite !add_run, !multiply_run. cbn [py_add py_mul of_result].
  rewrite !add_run, !multiply_run. cbn [py_add py_mul of_result].
  rewrite ?add_run. cbn [py_add of_result].
  rewrite Z.mul_add_distr_l, Z.add_assoc. repeat split; reflexivity.
Qed.

(** On floats the sums do not regroup: [(2 ** 53 + 1.0) + -1.0] and
    [2 ** 53 + (1.0 + -1.0)] differ. *)
Example float_add_not_associative :
  float_add (float_add (float_lit 1 53) one) (float_neg one)
  <> float_add (float_lit 1 53) (float_add one (float_neg one)).
Proof. vm_compute. discriminate. Qed.

(** * Conversion of integer operands *)

Section Conversion.

Lemma digits2_pos_bounds (m : positive) :
  2 ^ (Zpos (digits2_pos m) - 1) <= Zpos m < 2 ^ Zpos (digits2_pos m).
Proof.
  rewrite digits2_pos_size.
  pose proof (Pos.size_le m) as Hle. pose proof (Pos.size_gt m) as Hgt.
  apply Pos2Z.pos_le_pos in Hle. apply Pos2Z.pos_lt_pos in Hgt.
  rewrite Pos2Z.inj_pow in Hle, Hgt.
  change (Z.pos m~0) with (2 * Z.pos m) in Hle.
  replace (Z.pos (Pos.size m)) with (Z.succ (Z.pos (Pos.size m) - 1)) in Hle by lia.
  rewrite Z.pow_succ_r in Hle by lia.
  change (Z.pos 2) with 2 in *. lia.
Qed.

Lemma digits2_pos_unique (p : positive) (n : Z) :
  2 ^ (n - 1) <= Zpos p < 2 ^ n -> Zpos (digits2_pos p) = n.
Proof.
  intros [Hlo Hhi]. pose proof (digits2_pos_bounds p) as [Blo Bhi].
  destruct (Z.lt_trichotomy (Zpos (digits2_pos p)) n) as [Hlt | [Heq | Hgt]].
  - assert (2 ^ Zpos (digits2_pos p) <= 2 ^ (n - 1))
      by (apply Z.pow_le_mono_r; lia).
    lia.
  - exact Heq.
  - destruct (Z_lt_le_dec n 0) as [Hneg | Hnn].
    + rewrite (Z.pow_neg_r 2 n Hneg) in Hhi. lia.
    + assert (2 ^ n <= 2 ^ (Zpos (digits2_pos p) - 1))
        by (apply Z.pow_le_mono_r; lia).
      lia.
Qed.

Lemma shr_1_spec (mrs : shr_record) :
  0 <= shr_m mrs ->
  shr_m (shr_1 mrs) = shr_m mrs / 2 /\ shr_r (shr_1 mrs) = Z.odd (shr_m mrs).
Proof.
  destruct mrs as [m r s]. cbn [shr_m]. intros Hm.
  destruct m as [| [p | p |] | p]; cbn [shr_1 shr_m shr_r]; try lia.
  - split; reflexivity.
  - split; [| reflexivity]. rewrite Pos2Z.inj_xI.
    apply (Z.div_unique _ 2 _ 1); lia.
  - split; [| reflexivity]. rewrite Pos2Z.inj_xO.
    apply (Z.div_unique _ 2 _ 0); lia.
  - split; reflexivity.
Qed.

(** Shifting [k] places right divides by [2 ** k]; the round bit is the
    last bit shifted out. *)
Lemma shr_iter_spec (m k : positive) :
  shr_m (Pos.iter shr_1 (exact_record m) k) = Zpos m / 2 ^ Zpos k /\
  shr_r (Pos.iter shr_1 (exact_record m) k) = Z.odd (Zpos m / 2 ^ (Zpos k - 1)).
Proof.
  induction k as [| k [IHm IHr]] using Pos.peano_ind.
  - cbn [Pos.iter]. destruct (shr_1_spec (exact_record m)) as [H1 H2]; [cbn; lia |].
    rewrite H1, H2. cbn [exact_record shr_m]. 
    change (2 ^ (1 - 1)) with 1. rewrite Z.div_1_r. split; reflexivity.
  - rewrite Pos.iter_succ.
    assert (Hnn : 0 <= shr_m (Pos.iter shr_1 (exact_record m) k)).
    { rewrite IHm. apply Z.div_pos; [lia | apply Z.pow_pos_nonneg; lia]. }
    destruct (shr_1_spec _ Hnn) as [H1 H2]. rewrite H1, H2, IHm.
    rewrite Pos2Z.inj_succ, Z.pow_succ_r by lia.
    replace (Z.succ (Z.pos k) - 1) with (Z.pos k) by lia.
    split; [| reflexivity].
    rewrite Z.div_div by (try apply Z.pow_pos_nonneg; lia).
    rewrite (Z.mul_comm 2). reflexivity.
Qed.

Lemma round_nearest_even_cases (mrs : shr_record) :
  let r := round_nearest_even (shr_m mrs) (loc_of_shr_record mrs) in
  shr_m mrs <= r <= shr_m mrs + 1 /\
  (shr_r mrs = false -> r = shr_m mrs) /\
  (shr_r mrs = true -> Z.odd (shr_m mrs) = true -> r = shr_m mrs + 1).
Proof.
  destruct mrs as [m [] []]; cbn [shr_m shr_r loc_of_shr_record round_nearest_even].
  - repeat split; try lia; discriminate.
  - rewrite <- Z.negb_odd. destruct (Z.odd m); cbn [negb];
      repeat split; try lia; try discriminate.
  - repeat split; try lia; discriminate.
  - repeat split; try lia; discriminate.
Qed.

Lemma fexp_large (d : Z) : 54 <= d -> fexp prec emax d = d - 53.
Proof. intros Hd. unfold fexp, SpecFloat.emin, prec, emax. lia. Qed.

(** The conversion of an integer of more than 53 bits: the mantissa is cut
    to 53 bits, rounded to nearest even, and renormalised if the rounding
    carried into a 54th bit. *)
Lemma binary_round_large (s : bool) (m : positive) :
  54 <= Zpos (digits2_pos m) ->
  let k := Zpos (digits2_pos m) - 53 in
  let m1 := Zpos m / 2 ^ k in
  let rbit := Z.odd (Zpos m / 2 ^ (k - 1)) in
  exists r,
    m1 <= r <= m1 + 1 /\
    (rbit = false -> r = m1) /\
    (rbit = true -> Z.odd m1 = true -> r = m1 + 1) /\
    binary_round prec emax s m 0 =
      if r <? 2 ^ 53
      then (if k <=? 971 then S754_finite s (Z.to_pos r) k
            else S754_infinity s)
      else (if k + 1 <=? 971 then S754_finite s 4503599627370496 (k + 1)
            else S754_infinity s).
Proof.
  intros Hd k m1 rbit.
  pose proof (digits2_pos_bounds m) as [Blo Bhi].
  assert (Hk : 1 <= k) by (unfold k; lia).
  assert (Hm1 : 2 ^ 52 <= m1 < 2 ^ 53).
  { assert (Hpow : 0 < 2 ^ k) by (apply Z.pow_pos_nonneg; lia).
    replace (Z.pos (digits2_pos m) - 1) with (52 + k) in Blo by (unfold k; lia).
    replace (Z.pos (digits2_pos m)) with (53 + k) in Bhi by (unfold k; lia).
    rewrite Z.pow_add_r in Blo, Bhi by lia.
    unfold m1. split.
    - apply Z.div_le_lower_bound; lia.
    - apply Z.div_lt_upper_bound; lia. }
  unfold binary_round. rewrite Z.add_0_r, (fexp_large _ Hd).
  unfold shl_align. rewrite Z.sub_0_r. fold k.
  destruct k as [| kp | kp] eqn:Ek; try lia.
  unfold binary_round_aux. unfold shr_fexp at 1. cbn [Zdigits2].
  rewrite Z.add_0_r, (fexp_large _ Hd), Z.sub_0_r. fold k. rewrite Ek.
  cbn [shr shr_record_of_loc].
  change {| shr_m := Z.pos m; shr_r := false; shr_s := false |}
    with (exact_record m).
  rewrite iter_pos_iter.
  destruct (shr_iter_spec m kp) as [Hsm Hsr].
  pose proof (round_nearest_even_cases (Pos.iter shr_1 (exact_record m) kp))
    as (Hr1 & Hr2 & Hr3).
  cbv zeta in Hr1, Hr2, Hr3. rewrite Hsm, Hsr in *.
  fold m1 in Hr1, Hr2, Hr3 |- *.
  set (r := round_nearest_even m1 _) in *.
  exists r. split; [exact Hr1 |]. split; [exact Hr2 |]. split; [exact Hr3 |].
  clearbody r. clear Hsm Hsr Hr2 Hr3. rewrite Z.add_0_l.
  change (emax - prec) with 971.
  destruct (Z.ltb_spec r (2 ^ 53)) as [Hlt | Hge].
  - destruct r as [| p | p]; try lia.
    unfold shr_fexp. cbn [Zdigits2].
    rewrite (digits2_pos_unique p 53) by (change (53 - 1) with 52; lia).
    replace (fexp prec emax (53 + Z.pos kp) - Z.pos kp) with 0
      by (unfold fexp, SpecFloat.emin, prec, emax; lia).
    cbn [shr shr_record_of_loc shr_m Z.to_pos]. reflexivity.
  - replace r with 9007199254740992 by (change (2 ^ 53) with 9007199254740992 in *; lia).
    unfold shr_fexp. change (Zdigits2 9007199254740992) with 54.
    replace (fexp prec emax (54 + Z.pos kp) - Z.pos kp) with 1
      by (unfold fexp, SpecFloat.emin, prec, emax; lia).
    cbn [shr shr_record_of_loc SpecFloat.iter_pos shr_1 shr_m orb]. reflexivity.
Qed.

(** The conversion overflows exactly from [2 ** 1024 - 2 ** 970] on: the
    midpoint between the largest float and [2 ** 1024]. *)
Lemma binary_round_is_inf (s : bool) (m : positive) :
  is_inf (binary_round prec emax s m 0) = (2 ^ 1024 - 2 ^ 970 <=? Zpos m).
Proof.
  pose proof (digits2_pos_bounds m) as [Blo Bhi].
  destruct (Z_le_gt_dec (Zpos (digits2_pos m)) 53) as [Hsmall | Hlarge].
  - assert (Hm : Zpos m < 2 ^ 53).
    { eapply Z.lt_le_trans; [exact Bhi | apply Z.pow_le_mono_r; lia]. }
    destruct (binary_round_small s m Hm) as (mz & ez & -> & _).
    cbn [is_inf]. symmetry. apply Z.leb_gt. lia.
  - destruct (binary_round_large s m ltac:(lia)) as (r & Hr1 & Hr2 & Hr3 & ->).
    set (d := Zpos (digits2_pos m)) in *.
    destruct (Z.lt_trichotomy d 1024) as [Hlt | [Heq | Hgt]].
    + assert (Hpow : 2 ^ d <= 2 ^ 1023) by (apply Z.pow_le_mono_r; lia).
      destruct (Z.leb_spec (d - 53) 971); [| lia].
      destruct (Z.leb_spec (d - 53 + 1) 971); [| lia].
      destruct (r <? 2 ^ 53); cbn [is_inf]; symmetry; apply Z.leb_gt; lia.
    + rewrite Heq in *. clear Heq d.
      change (1024 - 53) with 971 in *. change (971 - 1) with 970 in *.
      change (971 <=? 971) with true. change (971 + 1 <=? 971) with false.
      cbv iota.
      pose proof (Z.div_mod (Z.pos m) (2 ^ 970) ltac:(lia)) as Eq.
      pose proof (Z.mod_pos_bound (Z.pos m) (2 ^ 970) ltac:(lia)) as Bq.
      pose proof (Z.div_mod (Z.pos m) (2 ^ 971) ltac:(lia)) as Em.
      pose proof (Z.mod_pos_bound (Z.pos m) (2 ^ 971) ltac:(lia)) as Bm.
      set (q := Z.pos m / 2 ^ 970) in *. set (m1 := Z.pos m / 2 ^ 971) in *.
      clearbody q m1.
      destruct (Z.odd q) eqn:Hodd.
      * apply Z.odd_spec in Hodd as [t Ht].
        destruct (Z.ltb_spec r (2 ^ 53)) as [Hlt | Hge]; cbn [is_inf]; symmetry.
        -- apply Z.leb_gt.
           destruct (Z_lt_le_dec (Z.pos m) (2 ^ 1024 - 2 ^ 970)) as [Hm | Hm];
             [exact Hm | exfalso].
           assert (Hm1 : m1 = 2 ^ 53 - 1) by lia.
           rewrite Hm1 in Hr3. specialize (Hr3 eq_refl eq_refl). lia.
        -- apply Z.leb_le. lia.
      * specialize (Hr2 eq_refl).
        assert (Heven : Z.even q = true) by (rewrite <- Z.negb_odd, Hodd; reflexivity).
        apply Z.even_spec in Heven as [t Ht].
        destruct (Z.ltb_spec r (2 ^ 53)) as [Hlt | Hge]; cbn [is_inf]; symmetry.
        -- apply Z.leb_gt. lia.
        -- lia.
    + assert (Hpow : 2 ^ 1024 <= 2 ^ (d - 1)) by (apply Z.pow_le_mono_r; lia).
      destruct (Z.leb_spec (d - 53) 971); [lia |].
      destruct (Z.leb_spec (d - 53 + 1) 971); [lia |].
      destruct (r <? 2 ^ 53); cbn [is_inf]; symmetry; apply Z.leb_le; lia.
Qed.

Lemma float_of_int_threshold (z : Z) :
  float_of_int z =
  if overflow_threshold <=? Z.abs z then Err OverflowError
  else Ok (binary_normalize prec emax z 0 false).
Proof.
  unfold float_of_int, overflow_threshold.
  destruct z as [| m | m]; cbn [binary_normalize].
  - reflexivity.
  - change (Z.abs (Z.pos m)) with (Z.pos m).
    rewrite <- (binary_round_is_inf false m).
    destruct (binary_round prec emax false m 0); reflexivity.
  - change (Z.abs (Z.neg m)) with (Z.pos m).
    rewrite <- (binary_round_is_inf true m).
    destruct (binary_round prec emax true m 0); reflexivity.
Qed.

End Conversion.

(** X15: the error behaviour of [Calculator] in full: [add] and [multiply]
    raise [OverflowError] exactly when one operand is a float and the other
    an integer of magnitude [2 ** 1024 - 2 ** 970] or more; for every other
    pair of operands both return a value (a float overflow gives an
    infinity, not an exception).  The world is unchanged either way. *)
Theorem calculator_raises_exactly (self : loc) (a b : value) (w : World) :
  (overflows a b = true ->
   Calculator.add self a b w = (Raise OverflowError, w) /\
   Calculator.multiply self a b w = (Raise OverflowError, w)) /\
  (overflows a b = false ->
   exists u v,
     Calculator.add self a b w = (Ret u, w) /\
     Calculator.multiply self a b w = (Ret v, w)).
Proof.
  rewrite add_run, multiply_run.
  destruct a as [x | x], b as [y | y]; cbn [overflows py_add py_mul];
    unfold float_binop; cbn [to_float]; rewrite ?float_of_int_threshold.
  - split; [discriminate |]. intros _. eexists _, _. split; reflexivity.
  - split; intros ->; [split; reflexivity |].
    eexists _, _. split; reflexivity.
  - split; intros ->; [split; reflexivity |].
    eexists _, _. split; reflexivity.
  - split; [discriminate |]. intros _. eexists _, _. split; reflexivity.
Qed.

(** X15 at [2 ** 1024 - 2 ** 970] (raises) and at the integer just below
    (returns). *)
Lemma calculator_raises_exactly_witness :
  (overflows (VInt (2 ^ 1024 - 2 ^ 970)) (VFloat one) = true /\
   Calculator.add calc (VInt (2 ^ 1024 - 2 ^ 970)) (VFloat one) empty_world
   = (Raise OverflowError, empty_world) /\
   Calculator.multiply calc (VInt (2 ^ 1024 - 2 ^ 970)) (VFloat one) empty_world
   = (Raise OverflowError, empty_world)) /\
  (overflows (VFloat one) (VInt (2 ^ 1024 - 2 ^ 970 - 1)) = false /\
   exists u v,
     Calculator.add calc (VFloat one) (VInt (2 ^ 1024 - 2 ^ 970 - 1)) empty_world
     = (Ret u, empty_world) /\
     Calculator.multiply calc (VFloat one) (VInt (2 ^ 1024 - 2 ^ 970 - 1))
       empty_world
     = (Ret v, empty_world)).
Proof.
  destruct (calculator_raises_exactly calc (VInt (2 ^ 1024 - 2 ^ 970))
              (VFloat one) empty_world) as [Hraise _].
  destruct (calculator_raises_exactly calc (VFloat one)
              (VInt (2 ^ 1024 - 2 ^ 970 - 1)) empty_world) as [_ Hret].
  split; split.
  - vm_compute. reflexivity.
  - apply Hraise. vm_compute. reflexivity.
  - vm_compute. reflexivity.
  - apply Hret. vm_compute. reflexivity.
Defined.
